(** * xsdata.models.enums: the vocabulary tables of the toolkit

    A shallow embedding of [xsdata/models/enums.py]: the [Namespace] and
    [DataType] enumerations with their reverse indexes
    [__STANDARD_NAMESPACES__] and [__XSDType__], the [Tag] constants and the
    small string-valued enumerations, followed by the properties the
    specification states about them. *)

From Stdlib Require Import Ascii String List.
From stdpp Require Import base decidable option list strings gmap fin_maps.

Local Open Scope string_scope.

(** ** The fragment of Python the module relies on *)

(** Exceptions the modelled code can raise, and the outcome of a call. *)
Inductive PyExn : Type :=
  | ValueError | TypeError | AttributeError.

Inductive PyResult (A : Type) : Type :=
  | Return (a : A)
  | Raise (e : PyExn).
Arguments Return {A} a.
Arguments Raise {A} e.

#[global] Instance PyResult_bind : MBind PyResult := λ A B f r,
  match r with
  | Return a => f a
  | Raise e => Raise e
  end.

(** [r] is a normal return, not an exception. *)
Definition returns_normally {A} (r : PyResult A) : Prop :=
  ∃ a, r = Return a.

(** Truth value of an [Optional[str]]: [None] and the empty string are
    false, every other string is true. *)
Definition truthy (x : option string) : bool :=
  match x with
  | None => false
  | Some EmptyString => false
  | Some (String _ _) => true
  end.

(** [d.get(k)] on a dictionary with string keys; [None] is never a key. *)
Definition dict_get {V} (d : gmap string V) (k : option string) : option V :=
  k ≫= λ s, d !! s.

(** [{key(x): x for x in xs}]: entries are stored in iteration order, a
    later entry replaces an earlier one with the same key. *)
Definition dict_comp {A} (key : A → string) (xs : list A) : gmap string A :=
  foldl (λ d x, <[key x := x]> d) ∅ xs.

(** [str.lower] on the ASCII range. *)
Definition ascii_lower (c : ascii) : ascii :=
  let n := nat_of_ascii c in
  if (65 <=? n)%nat && (n <=? 90)%nat then ascii_of_nat (n + 32) else c.

Fixpoint lower (s : string) : string :=
  match s with
  | EmptyString => EmptyString
  | String c r => String (ascii_lower c) (lower r)
  end.

(** [sep.join(parts)]. *)
Definition join (sep : string) (parts : list string) : string :=
  String.concat sep parts.

(** A [pathlib.Path] is modelled by the sequence of its parts.
    [p.joinpath(name)] for a [name] that is a single relative component (a
    file name without separator) appends that component. *)
Definition joinpath (p : list string) (name : string) : list string :=
  p ++ [name].

(** *** [enum.Enum]

    A class deriving from [Enum] is given by the members of its body, in
    order, each with a name and a value. *)
Class PyEnum (E V : Type) := {
  enum_name : E → string;
  enum_value : E → V;
  enum_declared : list E;
}.

Section enum.
Context {E V : Type} `{PyEnum E V} `{EqDecision V}.

(** A declaration whose value was already taken by an earlier one is an
    alias of it and is skipped when the class is iterated. *)
Fixpoint canonical (seen : list V) (decl : list E) : list E :=
  match decl with
  | [] => []
  | e :: rest =>
      if decide (enum_value e ∈ seen) then canonical seen rest
      else e :: canonical (enum_value e :: seen) rest
  end.

(** [for m in cls]. *)
Definition enum_iter : list E := canonical [] enum_declared.

(** [cls(value)]: the member carrying [value]; [ValueError] when there is
    none. *)
Definition enum_call (v : V) : PyResult E :=
  match list_find (λ e, enum_value e = v) enum_iter with
  | Some (_, e) => Return e
  | None => Raise ValueError
  end.
End enum.

(** ** [class Namespace(Enum)] *)
Module Namespace.

Inductive t : Type :=
  | XS | XML | XSI | XLINK | XHTML | SOAP11 | SOAP12.

Definition name (self : t) : string :=
  match self with
  | XS => "XS"
  | XML => "XML"
  | XSI => "XSI"
  | XLINK => "XLINK"
  | XHTML => "XHTML"
  | SOAP11 => "SOAP11"
  | SOAP12 => "SOAP12"
  end.

Definition value (self : t) : string :=
  match self with
  | XS => "http://www.w3.org/2001/XMLSchema"
  | XML => "http://www.w3.org/XML/1998/namespace"
  | XSI => "http://www.w3.org/2001/XMLSchema-instance"
  | XLINK => "http://www.w3.org/1999/xlink"
  | XHTML => "http://www.w3.org/1999/xhtml"
  | SOAP11 => "http://schemas.xmlsoap.org/wsdl/soap/"
  | SOAP12 => "http://schemas.xmlsoap.org/wsdl/soap12/"
  end.

#[global] Instance enum : PyEnum t string := {|
  enum_name := name;
  enum_value := value;
  enum_declared := [XS; XML; XSI; XLINK; XHTML; SOAP11; SOAP12];
|}.

Definition uri (self : t) : string := value self.

Definition prefix (self : t) : string := lower (name self).

(** The path [location] probes:
    [COMMON_SCHEMA_DIR.joinpath(f"{self.prefix}.xsd")]. *)
Definition local_path (COMMON_SCHEMA_DIR : list string) (self : t)
  : list string :=
  joinpath COMMON_SCHEMA_DIR (prefix self ++ ".xsd").

(** [location] depends on the directory the package is installed in and on
    the file system: [COMMON_SCHEMA_DIR] is the absolute schema directory,
    [path_exists] answers [Path.exists] and [as_uri] is [Path.as_uri] on
    absolute paths. *)
Definition location (COMMON_SCHEMA_DIR : list string)
    (path_exists : list string → bool) (as_uri : list string → string)
    (self : t) : option string :=
  let local_path := local_path COMMON_SCHEMA_DIR self in
  if path_exists local_path then Some (as_uri local_path) else None.

(** The module-level reverse index. *)
Definition __STANDARD_NAMESPACES__ : gmap string t :=
  dict_comp uri enum_iter.

(** [get_enum] reads the global table when it is called; [get_enum_in]
    is its body with the table made explicit. *)
Definition get_enum_in (table : gmap string t) (uri : option string)
  : option t :=
  if truthy uri then dict_get table uri else None.

Definition get_enum (uri : option string) : option t :=
  get_enum_in __STANDARD_NAMESPACES__ uri.

End Namespace.

(** ** [class NamespaceType]: the wildcard namespace tokens *)
Module NamespaceType.

Definition ANY : string := "##any".
Definition OTHER : string := "##other".
Definition LOCAL : string := "##local".
Definition TARGET : string := "##targetNamespace".

(** The constants of the class, in body order. *)
Definition constants : list string := [ANY; OTHER; LOCAL; TARGET].

End NamespaceType.

(** ** [class DataType(Enum)] *)

(** The native classes the table refers to: [lxml.etree.QName], [str],
    [object], [bool], [int], [decimal.Decimal] and [float]. *)
Inductive PyClass : Type :=
  | cls_QName | cls_str | cls_object | cls_bool | cls_int | cls_Decimal
  | cls_float.

(** [cls.__name__]. *)
Definition __name__ (c : PyClass) : string :=
  match c with
  | cls_QName => "QName"
  | cls_str => "str"
  | cls_object => "object"
  | cls_bool => "bool"
  | cls_int => "int"
  | cls_Decimal => "Decimal"
  | cls_float => "float"
  end.

(** The second component of a member's value: one class, or a tuple of
    classes. *)
Inductive PyLocal : Type :=
  | Cls (c : PyClass)
  | Tup (cs : list PyClass).

#[export] Instance PyClass_eq_dec : EqDecision PyClass.
Proof. solve_decision. Defined.

#[export] Instance PyLocal_eq_dec : EqDecision PyLocal.
Proof. solve_decision. Defined.

(** [isinstance(x, Iterable)]: a tuple defines [__iter__]; a class object
    is an instance of [type], which does not. *)
Definition isinstance_Iterable (x : PyLocal) : bool :=
  match x with
  | Tup _ => true
  | Cls _ => false
  end.

(** The items a [for] clause draws from [x]; a class object cannot be
    iterated. *)
Definition py_iter (x : PyLocal) : PyResult (list PyClass) :=
  match x with
  | Tup cs => Return cs
  | Cls _ => Raise TypeError
  end.

(** [x.__name__]; a tuple has no such attribute. *)
Definition getattr_name (x : PyLocal) : PyResult string :=
  match x with
  | Cls c => Return (__name__ c)
  | Tup _ => Raise AttributeError
  end.

Module DataType.

Inductive t : Type :=
  | QMAP | OBJECT | ANY_ATOMIC_TYPE | ANY_URI | ANY_SIMPLE_TYPE | ANY_TYPE
  | BASE | BASE64_BINARY | BOOLEAN | BYTE | DATE | DATE_TIME
  | DATE_TIMESTAMP | DAY_TIME_DURATION | YEAR_MONTH_DURATION | DECIMAL
  | DERIVATION_CONTROL | DOUBLE | DURATION | ENTITIES | ENTITY | FLOAT
  | G_DAY | G_MONTH | G_MONTH_DAY | G_YEAR | G_YEAR_MONTH | HEX_BINARY | ID
  | IDREF | IDREFS | INT | INTEGER | LANG | LANGUAGE | LONG | NAME | NCNAME
  | NEGATIVE_INTEGER | NMTOKEN | NMTOKENS | NON_NEGATIVE_INTEGER
  | NON_POSITIVE_INTEGER | NORMALIZED_STRING | NOTATION | POSITIVE_INTEGER
  | QNAME | SHORT | SIMPLE_DERIVATION_SET | STRING | TIME | TOKEN
  | UNSIGNED_BYTE | UNSIGNED_INT | UNSIGNED_LONG | UNSIGNED_SHORT.

Definition name (self : t) : string :=
  match self with
  | QMAP => "QMAP"
  | OBJECT => "OBJECT"
  | ANY_ATOMIC_TYPE => "ANY_ATOMIC_TYPE"
  | ANY_URI => "ANY_URI"
  | ANY_SIMPLE_TYPE => "ANY_SIMPLE_TYPE"
  | ANY_TYPE => "ANY_TYPE"
  | BASE => "BASE"
  | BASE64_BINARY => "BASE64_BINARY"
  | BOOLEAN => "BOOLEAN"
  | BYTE => "BYTE"
  | DATE => "DATE"
  | DATE_TIME => "DATE_TIME"
  | DATE_TIMESTAMP => "DATE_TIMESTAMP"
  | DAY_TIME_DURATION => "DAY_TIME_DURATION"
  | YEAR_MONTH_DURATION => "YEAR_MONTH_DURATION"
  | DECIMAL => "DECIMAL"
  | DERIVATION_CONTROL => "DERIVATION_CONTROL"
  | DOUBLE => "DOUBLE"
  | DURATION => "DURATION"
  | ENTITIES => "ENTITIES"
  | ENTITY => "ENTITY"
  | FLOAT => "FLOAT"
  | G_DAY => "G_DAY"
  | G_MONTH => "G_MONTH"
  | G_MONTH_DAY => "G_MONTH_DAY"
  | G_YEAR => "G_YEAR"
  | G_YEAR_MONTH => "G_YEAR_MONTH"
  | HEX_BINARY => "HEX_BINARY"
  | ID => "ID"
  | IDREF => "IDREF"
  | IDREFS => "IDREFS"
  | INT => "INT"
  | INTEGER => "INTEGER"
  | LANG => "LANG"
  | LANGUAGE => "LANGUAGE"
  | LONG => "LONG"
  | NAME => "NAME"
  | NCNAME => "NCNAME"
  | NEGATIVE_INTEGER => "NEGATIVE_INTEGER"
  | NMTOKEN => "NMTOKEN"
  | NMTOKENS => "NMTOKENS"
  | NON_NEGATIVE_INTEGER => "NON_NEGATIVE_INTEGER"
  | NON_POSITIVE_INTEGER => "NON_POSITIVE_INTEGER"
  | NORMALIZED_STRING => "NORMALIZED_STRING"
  | NOTATION => "NOTATION"
  | POSITIVE_INTEGER => "POSITIVE_INTEGER"
  | QNAME => "QNAME"
  | SHORT => "SHORT"
  | SIMPLE_DERIVATION_SET => "SIMPLE_DERIVATION_SET"
  | STRING => "STRING"
  | TIME => "TIME"
  | TOKEN => "TOKEN"
  | UNSIGNED_BYTE => "UNSIGNED_BYTE"
  | UNSIGNED_INT => "UNSIGNED_INT"
  | UNSIGNED_LONG => "UNSIGNED_LONG"
  | UNSIGNED_SHORT => "UNSIGNED_SHORT"
  end.

Definition value (self : t) : string * PyLocal :=
  match self with
  | QMAP => ("qmap", Tup [cls_QName; cls_str])
  | OBJECT => ("object", Cls cls_object)
  | ANY_ATOMIC_TYPE => ("anyAtomicType", Cls cls_str)
  | ANY_URI => ("anyURI", Cls cls_str)
  | ANY_SIMPLE_TYPE => ("anySimpleType", Cls cls_object)
  | ANY_TYPE => ("anyType", Cls cls_object)
  | BASE => ("base", Cls cls_str)
  | BASE64_BINARY => ("base64Binary", Cls cls_str)
  | BOOLEAN => ("boolean", Cls cls_bool)
  | BYTE => ("byte", Cls cls_int)
  | DATE => ("date", Cls cls_str)
  | DATE_TIME => ("dateTime", Cls cls_str)
  | DATE_TIMESTAMP => ("dateTimeStamp", Cls cls_str)
  | DAY_TIME_DURATION => ("dayTimeDuration", Cls cls_str)
  | YEAR_MONTH_DURATION => ("yearMonthDuration", Cls cls_str)
  | DECIMAL => ("decimal", Cls cls_Decimal)
  | DERIVATION_CONTROL => ("derivationControl", Cls cls_str)
  | DOUBLE => ("double", Cls cls_Decimal)
  | DURATION => ("duration", Cls cls_str)
  | ENTITIES => ("ENTITIES", Cls cls_int)
  | ENTITY => ("ENTITY", Cls cls_int)
  | FLOAT => ("float", Cls cls_float)
  | G_DAY => ("gDay", Cls cls_str)
  | G_MONTH => ("gMonth", Cls cls_str)
  | G_MONTH_DAY => ("gMonthDay", Cls cls_str)
  | G_YEAR => ("gYear", Cls cls_str)
  | G_YEAR_MONTH => ("gYearMonth", Cls cls_str)
  | HEX_BINARY => ("hexBinary", Cls cls_str)
  | ID => ("ID", Cls cls_str)
  | IDREF => ("IDREF", Cls cls_str)
  | IDREFS => ("IDREFS", Cls cls_str)
  | INT => ("int", Cls cls_int)
  | INTEGER => ("integer", Cls cls_int)
  | LANG => ("lang", Cls cls_str)
  | LANGUAGE => ("language", Cls cls_str)
  | LONG => ("long", Cls cls_int)
  | NAME => ("Name", Cls cls_str)
  | NCNAME => ("NCName", Cls cls_str)
  | NEGATIVE_INTEGER => ("negativeInteger", Cls cls_int)
  | NMTOKEN => ("NMTOKEN", Cls cls_str)
  | NMTOKENS => ("NMTOKENS", Cls cls_str)
  | NON_NEGATIVE_INTEGER => ("nonNegativeInteger", Cls cls_int)
  | NON_POSITIVE_INTEGER => ("nonPositiveInteger", Cls cls_int)
  | NORMALIZED_STRING => ("normalizedString", Cls cls_str)
  | NOTATION => ("NOTATION", Cls cls_str)
  | POSITIVE_INTEGER => ("positiveInteger", Cls cls_int)
  | QNAME => ("QName", Cls cls_QName)
  | SHORT => ("short", Cls cls_int)
  | SIMPLE_DERIVATION_SET => ("simpleDerivationSet", Cls cls_str)
  | STRING => ("string", Cls cls_str)
  | TIME => ("time", Cls cls_str)
  | TOKEN => ("token", Cls cls_str)
  | UNSIGNED_BYTE => ("unsignedByte", Cls cls_int)
  | UNSIGNED_INT => ("unsignedInt", Cls cls_int)
  | UNSIGNED_LONG => ("unsignedLong", Cls cls_int)
  | UNSIGNED_SHORT => ("unsignedShort", Cls cls_int)
  end.

Definition declared : list t :=
  [
   QMAP; OBJECT; ANY_ATOMIC_TYPE; ANY_URI; ANY_SIMPLE_TYPE; ANY_TYPE; BASE;
   BASE64_BINARY; BOOLEAN; BYTE; DATE; DATE_TIME; DATE_TIMESTAMP;
   DAY_TIME_DURATION; YEAR_MONTH_DURATION; DECIMAL; DERIVATION_CONTROL;
   DOUBLE; DURATION; ENTITIES; ENTITY; FLOAT; G_DAY; G_MONTH; G_MONTH_DAY;
   G_YEAR; G_YEAR_MONTH; HEX_BINARY; ID; IDREF; IDREFS; INT; INTEGER; LANG;
   LANGUAGE; LONG; NAME; NCNAME; NEGATIVE_INTEGER; NMTOKEN; NMTOKENS;
   NON_NEGATIVE_INTEGER; NON_POSITIVE_INTEGER; NORMALIZED_STRING; NOTATION;
   POSITIVE_INTEGER; QNAME; SHORT; SIMPLE_DERIVATION_SET; STRING; TIME;
   TOKEN; UNSIGNED_BYTE; UNSIGNED_INT; UNSIGNED_LONG; UNSIGNED_SHORT].

#[global] Instance enum : PyEnum t (string * PyLocal) := {|
  enum_name := name;
  enum_value := value;
  enum_declared := declared;
|}.

(** [__init__(self, code, local)] unpacks the value. *)
Definition code (self : t) : string := fst (value self).
Definition local (self : t) : PyLocal := snd (value self).

Definition qname (self : t) : string * string :=
  (Namespace.uri Namespace.XS, code self).

Definition local_name (self : t) : PyResult string :=
  if isinstance_Iterable (local self) then
    cs ← py_iter (local self);
    Return (join ", " (__name__ <$> cs))
  else getattr_name (local self).

(** The module-level reverse index. *)
Definition __XSDType__ : gmap string t :=
  dict_comp code enum_iter.

(** [get_enum] reads the global table when it is called; [get_enum_in]
    is its body with the table made explicit. *)
Definition get_enum_in (table : gmap string t) (code : option string)
  : option t :=
  if truthy code then dict_get table code else None.

Definition get_enum (code : option string) : option t :=
  get_enum_in __XSDType__ code.

End DataType.

(** ** [class Tag]: the schema tag names *)
Module Tag.

Definition ALL : string := "All".
Definition ANNOTATION : string := "Annotation".
Definition ANY : string := "Any".
Definition ANY_ATTRIBUTE : string := "AnyAttribute".
Definition APPINFO : string := "Appinfo".
Definition ASSERTION : string := "Assertion".
Definition ALTERNATIVE : string := "Alternative".
Definition ATTRIBUTE : string := "Attribute".
Definition ATTRIBUTE_GROUP : string := "AttributeGroup".
Definition CHOICE : string := "Choice".
Definition COMPLEX_CONTENT : string := "ComplexContent".
Definition COMPLEX_TYPE : string := "ComplexType".
Definition DOCUMENTATION : string := "Documentation".
Definition ELEMENT : string := "Element".
Definition EXTENSION : string := "Extension".
Definition FIELD : string := "Field".
Definition GROUP : string := "Group".
Definition IMPORT : string := "Import".
Definition INCLUDE : string := "Include".
Definition KEY : string := "Key".
Definition KEYREF : string := "Keyref".
Definition LIST : string := "List".
Definition NOTATION : string := "Notation".
Definition OVERRIDE : string := "Override".
Definition REDEFINE : string := "Redefine".
Definition RESTRICTION : string := "Restriction".
Definition SCHEMA : string := "Schema".
Definition SELECTOR : string := "Selector".
Definition SEQUENCE : string := "Sequence".
Definition SIMPLE_CONTENT : string := "SimpleContent".
Definition SIMPLE_TYPE : string := "SimpleType".
Definition UNION : string := "Union".
Definition UNIQUE : string := "Unique".

(* Restrictions *)
Definition ENUMERATION : string := "Enumeration".
Definition FRACTION_DIGITS : string := "FractionDigits".
Definition LENGTH : string := "Length".
Definition MAX_EXCLUSIVE : string := "MaxExclusive".
Definition MAX_INCLUSIVE : string := "MaxInclusive".
Definition MAX_LENGTH : string := "MaxLength".
Definition MIN_EXCLUSIVE : string := "MinExclusive".
Definition MIN_INCLUSIVE : string := "MinInclusive".
Definition MIN_LENGTH : string := "MinLength".
Definition PATTERN : string := "Pattern".
Definition TOTAL_DIGITS : string := "TotalDigits".
Definition WHITE_SPACE : string := "WhiteSpace".

(** The constants of the class body up to the [Restrictions] comment. *)
Definition structural : list string :=
  [
   ALL; ANNOTATION; ANY; ANY_ATTRIBUTE; APPINFO; ASSERTION; ALTERNATIVE;
   ATTRIBUTE; ATTRIBUTE_GROUP; CHOICE; COMPLEX_CONTENT; COMPLEX_TYPE;
   DOCUMENTATION; ELEMENT; EXTENSION; FIELD; GROUP; IMPORT; INCLUDE; KEY;
   KEYREF; LIST; NOTATION; OVERRIDE; REDEFINE; RESTRICTION; SCHEMA;
   SELECTOR; SEQUENCE; SIMPLE_CONTENT; SIMPLE_TYPE; UNION; UNIQUE].

(** The constants below the [Restrictions] comment. *)
Definition restrictions : list string :=
  [
   ENUMERATION; FRACTION_DIGITS; LENGTH; MAX_EXCLUSIVE; MAX_INCLUSIVE;
   MAX_LENGTH; MIN_EXCLUSIVE; MIN_INCLUSIVE; MIN_LENGTH; PATTERN;
   TOTAL_DIGITS; WHITE_SPACE].

(** Every constant of the class, in body order. *)
Definition constants : list string := structural ++ restrictions.

End Tag.

(** ** The small string-valued enumerations *)

(** [class FormType(Enum)]: element and attribute form types *)
Module FormType.

Inductive t : Type :=
  | QUALIFIED | UNQUALIFIED.

Definition name (self : t) : string :=
  match self with
  | QUALIFIED => "QUALIFIED"
  | UNQUALIFIED => "UNQUALIFIED"
  end.

Definition value (self : t) : string :=
  match self with
  | QUALIFIED => "qualified"
  | UNQUALIFIED => "unqualified"
  end.

#[global] Instance enum : PyEnum t string := {|
  enum_name := name;
  enum_value := value;
  enum_declared := [QUALIFIED; UNQUALIFIED];
|}.

End FormType.

(** [class Mode(Enum)]: open content modes *)
Module Mode.

Inductive t : Type :=
  | NONE | SUFFIX | INTERLEAVE.

Definition name (self : t) : string :=
  match self with
  | NONE => "NONE"
  | SUFFIX => "SUFFIX"
  | INTERLEAVE => "INTERLEAVE"
  end.

Definition value (self : t) : string :=
  match self with
  | NONE => "none"
  | SUFFIX => "suffix"
  | INTERLEAVE => "interleave"
  end.

#[global] Instance enum : PyEnum t string := {|
  enum_name := name;
  enum_value := value;
  enum_declared := [NONE; SUFFIX; INTERLEAVE];
|}.

End Mode.

(** [class UseType(Enum)]: attribute use types *)
Module UseType.

Inductive t : Type :=
  | OPTIONAL | PROHIBITED | REQUIRED.

Definition name (self : t) : string :=
  match self with
  | OPTIONAL => "OPTIONAL"
  | PROHIBITED => "PROHIBITED"
  | REQUIRED => "REQUIRED"
  end.

Definition value (self : t) : string :=
  match self with
  | OPTIONAL => "optional"
  | PROHIBITED => "prohibited"
  | REQUIRED => "required"
  end.

#[global] Instance enum : PyEnum t string := {|
  enum_name := name;
  enum_value := value;
  enum_declared := [OPTIONAL; PROHIBITED; REQUIRED];
|}.

End UseType.

(** [class ProcessType(Enum)]: wildcard process types *)
Module ProcessType.

Inductive t : Type :=
  | LAX | SKIP | STRICT.

Definition name (self : t) : string :=
  match self with
  | LAX => "LAX"
  | SKIP => "SKIP"
  | STRICT => "STRICT"
  end.

Definition value (self : t) : string :=
  match self with
  | LAX => "lax"
  | SKIP => "skip"
  | STRICT => "strict"
  end.

#[global] Instance enum : PyEnum t string := {|
  enum_name := name;
  enum_value := value;
  enum_declared := [LAX; SKIP; STRICT];
|}.

End ProcessType.

(** [class BindingStyle(Enum)] *)
Module BindingStyle.

Inductive t : Type :=
  | RPC | DOCUMENT.

Definition name (self : t) : string :=
  match self with
  | RPC => "RPC"
  | DOCUMENT => "DOCUMENT"
  end.

Definition value (self : t) : string :=
  match self with
  | RPC => "rpc"
  | DOCUMENT => "document"
  end.

#[global] Instance enum : PyEnum t string := {|
  enum_name := name;
  enum_value := value;
  enum_declared := [RPC; DOCUMENT];
|}.

End BindingStyle.

(** [class UseChoice(Enum)] *)
Module UseChoice.

Inductive t : Type :=
  | LITERAL | ENCODED.

Definition name (self : t) : string :=
  match self with
  | LITERAL => "LITERAL"
  | ENCODED => "ENCODED"
  end.

Definition value (self : t) : string :=
  match self with
  | LITERAL => "literal"
  | ENCODED => "encoded"
  end.

#[global] Instance enum : PyEnum t string := {|
  enum_name := name;
  enum_value := value;
  enum_declared := [LITERAL; ENCODED];
|}.

End UseChoice.

(** ** The Schema Tag Registry operations *)

(** [s] ends with [suffix]. *)
Definition ends_with (suffix s : string) : bool :=
  let n := String.length s in
  let m := String.length suffix in
  (m <=? n)%nat && String.eqb (String.substring (n - m) m s) suffix.

(** Modelled from the spec: the membership test [isRecognized] of the Schema
    Tag Registry; [enums.py] declares the tag constants of [class Tag] and no
    operation on them. A tag is recognized when it is one of the constants,
    by exact string match. *)
Definition isRecognized (tag : string) : bool :=
  bool_decide (tag ∈ Tag.constants).

(** Modelled from the spec: the classification [isRestrictionFacet] of the
    Schema Tag Registry, which [enums.py] does not define. Among the
    recognized tags it is true for Enumeration, Pattern, Length and the
    length bounds, the tags ending in Digits, Inclusive or Exclusive, and
    WhiteSpace. *)
Definition isRestrictionFacet (tag : string) : bool :=
  isRecognized tag &&
  (String.eqb tag "Enumeration" || String.eqb tag "Pattern"
   || String.eqb tag "Length" || String.eqb tag "MinLength"
   || String.eqb tag "MaxLength"
   || ends_with "Digits" tag || ends_with "Inclusive" tag
   || ends_with "Exclusive" tag || String.eqb tag "WhiteSpace").

(** ** The vocabulary of W3C XML Schema Part 2 *)
Module W3C.

(** The primitive datatypes. *)
Definition primitive : list string :=
  ["string"; "boolean"; "decimal"; "float"; "double"; "duration";
   "dateTime"; "time"; "date"; "gYearMonth"; "gYear"; "gMonthDay"; "gDay";
   "gMonth"; "hexBinary"; "base64Binary"; "anyURI"; "QName"; "NOTATION"].

(** The datatypes derived from [integer], and [integer] itself. *)
Definition integer_family : list string :=
  ["integer"; "nonPositiveInteger"; "negativeInteger"; "long"; "int";
   "short"; "byte"; "nonNegativeInteger"; "unsignedLong"; "unsignedInt";
   "unsignedShort"; "unsignedByte"; "positiveInteger"].

(** The other derived datatypes; the last three are those added by
    XSD 1.1. *)
Definition derived_other : list string :=
  ["normalizedString"; "token"; "language"; "NMTOKEN"; "NMTOKENS"; "Name";
   "NCName"; "ID"; "IDREF"; "IDREFS"; "ENTITY"; "ENTITIES";
   "yearMonthDuration"; "dayTimeDuration"; "dateTimeStamp"].

(** The special types at the root of the hierarchy. *)
Definition special : list string :=
  ["anyType"; "anySimpleType"; "anyAtomicType"].

(** Every built-in type name. *)
Definition builtin : list string :=
  special ++ primitive ++ derived_other ++ integer_family.

End W3C.

(** ** The specification's view of the Data Type Registry *)

(** The native kinds of an entry as the specification presents them, an
    ordered sequence: the items of [local] when it is a tuple, and the
    sequence of length one holding [local] when it is a single class. *)
Definition nativeKinds (self : DataType.t) : list PyClass :=
  match DataType.local self with
  | Tup cs => cs
  | Cls c => [c]
  end.

(** The codes of the Data Type Registry, in declaration order. *)
Definition registry_codes : list string :=
  DataType.code <$> enum_iter.

(** The entries of the Data Type Registry carrying the code [c]. *)
Definition entries_with_code (c : string) : list DataType.t :=
  filter (λ d, DataType.code d = c) enum_iter.

(** By-value lookup on a string-valued enumeration [E]: the value of a
    member leads back to that member, and a string that is no member's
    value, "bogus" among them, raises [ValueError]. *)
Definition by_value_lookup (E : Type) `{PyEnum E string} : Prop :=
  (∀ v : E, enum_call (enum_value v) = Return v) ∧
  (∀ s : string, (∀ v : E, enum_value v ≠ s) →
     enum_call (E:=E) s = Raise ValueError) ∧
  enum_call (E:=E) "bogus" = Raise ValueError.

(** On a string-valued enumeration [E], the value of every member is its
    name in lower case, and the name itself, as written in the class body,
    is no member's value: looking it up raises [ValueError]. *)
Definition value_is_lower_name (E : Type) `{PyEnum E string} : Prop :=
  ∀ m : E,
    enum_value m = lower (enum_name m) ∧
    enum_call (E:=E) (enum_name m) = Raise ValueError.

(** * Properties *)

(** ** Dictionaries built by comprehension *)
Section dict_comp.
Context {A : Type} (key : A → string).

Lemma foldl_insert_lookup_other (xs : list A) (d : gmap string A) k :
  k ∉ key <$> xs →
  foldl (λ d x, <[key x := x]> d) d xs !! k = d !! k.
Proof.
  revert d. induction xs as [|x xs IH]; intros d Hk; [done|].
  cbn [foldl]. rewrite fmap_cons in Hk.
  apply not_elem_of_cons in Hk as [Hne Hk].
  rewrite IH by done. by rewrite lookup_insert_ne.
Qed.

Lemma foldl_insert_lookup_NoDup (xs : list A) (d : gmap string A) x :
  NoDup (key <$> xs) → x ∈ xs →
  foldl (λ d x, <[key x := x]> d) d xs !! key x = Some x.
Proof.
  revert d. induction xs as [|y xs IH]; intros d Hnd Hx.
  { by apply elem_of_nil in Hx. }
  rewrite fmap_cons in Hnd. apply NoDup_cons in Hnd as [Hy Hnd].
  cbn [foldl]. apply elem_of_cons in Hx as [->|Hx].
  - rewrite foldl_insert_lookup_other by done. apply lookup_insert_eq.
  - by apply IH.
Qed.

Lemma dict_comp_lookup (xs : list A) x :
  NoDup (key <$> xs) → x ∈ xs → dict_comp key xs !! key x = Some x.
Proof. apply foldl_insert_lookup_NoDup. Qed.

Lemma dict_comp_lookup_None (xs : list A) k :
  k ∉ key <$> xs → dict_comp key xs !! k = None.
Proof.
  intros Hk. unfold dict_comp.
  rewrite foldl_insert_lookup_other by done. apply lookup_empty.
Qed.
End dict_comp.

(** ** Enumerations *)
Section enum_facts.
Context {E V : Type} `{PyEnum E V} `{EqDecision V}.

Lemma canonical_elem_of seen decl e :
  e ∈ canonical seen decl → e ∈ decl.
Proof.
  revert seen. induction decl as [|a decl IH]; intros seen; cbn; [done|].
  case_decide.
  - intros ?%IH. by apply list_elem_of_further.
  - intros [->|?%IH]%elem_of_cons; [apply list_elem_of_here|].
    by apply list_elem_of_further.
Qed.

Lemma canonical_fresh seen decl :
  NoDup (enum_value <$> decl) →
  (∀ e, e ∈ decl → enum_value e ∉ seen) →
  canonical seen decl = decl.
Proof.
  revert seen. induction decl as [|a decl IH]; intros seen Hnd Hs; [done|].
  rewrite fmap_cons in Hnd. apply NoDup_cons in Hnd as [Ha Hnd].
  cbn. case_decide as Hin.
  - exfalso. eapply Hs; [apply list_elem_of_here|done].
  - f_equal. apply IH; [done|]. intros e He.
    intros [Heq|?]%elem_of_cons.
    + apply Ha. rewrite <- Heq. by apply list_elem_of_fmap_2.
    + eapply Hs; [by apply list_elem_of_further|done].
Qed.

(** Without aliases, iterating the class yields its declarations. *)
Lemma enum_iter_declared :
  NoDup (enum_value <$> enum_declared) → enum_iter = enum_declared.
Proof.
  intros Hnd. apply canonical_fresh; [done|].
  intros e _ Hin. by apply elem_of_nil in Hin.
Qed.

Lemma list_find_value (l : list E) e :
  NoDup (enum_value <$> l) → e ∈ l →
  snd <$> list_find (λ x, enum_value x = enum_value e) l = Some e.
Proof.
  induction l as [|a l IH]; intros Hnd He.
  { by apply elem_of_nil in He. }
  rewrite fmap_cons in Hnd. apply NoDup_cons in Hnd as [Ha Hnd].
  cbn. case_decide as Heq.
  - apply elem_of_cons in He as [->|He]; [done|].
    exfalso. apply Ha. rewrite Heq. by apply list_elem_of_fmap_2.
  - apply elem_of_cons in He as [->|He]; [done|].
    specialize (IH Hnd He).
    destruct (list_find _ l) as [[i y]|]; [|done]. exact IH.
Qed.

Lemma enum_call_value e :
  NoDup (enum_value <$> enum_declared) → e ∈ enum_declared →
  enum_call (enum_value e) = Return e.
Proof.
  intros Hnd He. unfold enum_call. rewrite (enum_iter_declared Hnd).
  pose proof (list_find_value _ e Hnd He) as Hf.
  destruct (list_find _ _) as [[i y]|]; [|done].
  cbn in Hf. congruence.
Qed.

Lemma enum_call_unknown v :
  (∀ e, e ∈ enum_declared → enum_value e ≠ v) →
  enum_call v = Raise ValueError.
Proof.
  intros Hv. unfold enum_call.
  destruct (list_find _ _) as [[i y]|] eqn:Hf; [|done].
  apply list_find_Some in Hf as (Hl & Hy & _).
  exfalso. apply (Hv y); [|done].
  eapply canonical_elem_of, list_elem_of_lookup_2, Hl.
Qed.
End enum_facts.

(** Membership in, and absence of duplicates from, a concrete table. *)
Ltac in_table :=
  repeat first [apply list_elem_of_here | apply list_elem_of_further].

Ltac by_table := apply (bool_decide_unpack _); vm_compute; reflexivity.

(** ** The Namespace Registry *)

Lemma Namespace_no_alias :
  NoDup (enum_value <$> enum_declared (E:=Namespace.t)).
Proof. by_table. Qed.

Lemma Namespace_declared (ns : Namespace.t) : ns ∈ enum_declared.
Proof. destruct ns; cbn; in_table. Qed.

Lemma Namespace_iter : enum_iter = enum_declared (E:=Namespace.t).
Proof. apply enum_iter_declared, Namespace_no_alias. Qed.

Lemma Namespace_uri_truthy (ns : Namespace.t) :
  truthy (Some (Namespace.uri ns)) = true.
Proof. by destruct ns. Qed.

Lemma Namespace_table_lookup (ns : Namespace.t) :
  Namespace.__STANDARD_NAMESPACES__ !! Namespace.uri ns = Some ns.
Proof.
  unfold Namespace.__STANDARD_NAMESPACES__. rewrite Namespace_iter.
  apply dict_comp_lookup; [apply Namespace_no_alias|apply Namespace_declared].
Qed.

Lemma Namespace_table_miss (u : string) :
  (∀ ns, Namespace.uri ns ≠ u) →
  Namespace.__STANDARD_NAMESPACES__ !! u = None.
Proof.
  intros Hu. apply dict_comp_lookup_None.
  intros (ns & -> & _)%list_elem_of_fmap. by apply (Hu ns).
Qed.

(** C7. Looking up the URI of a registered namespace returns that namespace;
    the lookup of an absent URI ([None]) and of any URI that no registered
    namespace carries, such as "unregistered:uri", returns [None]. *)
Theorem Namespace_get_enum_round_trip :
  (∀ ns, Namespace.get_enum (Some (Namespace.uri ns)) = Some ns) ∧
  Namespace.get_enum None = None ∧
  (∀ u, (∀ ns, Namespace.uri ns ≠ u) → Namespace.get_enum (Some u) = None) ∧
  Namespace.get_enum (Some "unregistered:uri") = None.
Proof.
  split_and!.
  - intros ns. unfold Namespace.get_enum, Namespace.get_enum_in.
    rewrite Namespace_uri_truthy. apply Namespace_table_lookup.
  - reflexivity.
  - intros u Hu. unfold Namespace.get_enum, Namespace.get_enum_in.
    destruct (truthy (Some u)); [|done]. by apply Namespace_table_miss.
  - vm_compute. reflexivity.
Qed.

Lemma Namespace_get_enum_round_trip_witness :
  Namespace.get_enum (Some (Namespace.uri Namespace.XLINK))
    = Some Namespace.XLINK ∧
  Namespace.get_enum (Some "urn:example:none") = None.
Proof.
  destruct Namespace_get_enum_round_trip as (Hrt & _ & Hmiss & _).
  split; [apply Hrt|].
  apply Hmiss. intros ns. destruct ns; vm_compute; discriminate.
Defined.

(** C9. The prefix of a registered namespace is its symbolic name in lower
    case, and two registered namespaces with the same prefix are the same
    namespace. *)
Theorem Namespace_prefix_lower_injective :
  (∀ ns, Namespace.prefix ns = lower (Namespace.name ns)) ∧
  Namespace.prefix <$> enum_iter
    = ["xs"; "xml"; "xsi"; "xlink"; "xhtml"; "soap11"; "soap12"] ∧
  NoDup (Namespace.prefix <$> enum_iter) ∧
  (∀ a b, Namespace.prefix a = Namespace.prefix b → a = b).
Proof.
  split_and!.
  - reflexivity.
  - vm_compute. reflexivity.
  - by_table.
  - intros a b. destruct a, b; vm_compute; first [reflexivity|discriminate].
Qed.

Lemma Namespace_prefix_lower_injective_witness :
  Namespace.prefix Namespace.SOAP11 = "soap11" ∧
  Namespace.SOAP11 = Namespace.SOAP11.
Proof.
  destruct Namespace_prefix_lower_injective as (Hlow & _ & _ & Hinj).
  split; [rewrite Hlow; reflexivity|].
  apply Hinj. reflexivity.
Defined.

(** ** The Data Type Registry *)

Lemma DataType_no_alias :
  NoDup (enum_value <$> enum_declared (E:=DataType.t)).
Proof. by_table. Qed.

Lemma DataType_code_NoDup :
  NoDup (DataType.code <$> enum_declared).
Proof. by_table. Qed.

Lemma DataType_declared (d : DataType.t) : d ∈ enum_declared.
Proof. destruct d; cbn; in_table. Qed.

Lemma DataType_iter : enum_iter = enum_declared (E:=DataType.t).
Proof. apply enum_iter_declared, DataType_no_alias. Qed.

Lemma DataType_code_truthy (d : DataType.t) :
  truthy (Some (DataType.code d)) = true.
Proof. by destruct d. Qed.

Lemma DataType_table_lookup (d : DataType.t) :
  DataType.__XSDType__ !! DataType.code d = Some d.
Proof.
  unfold DataType.__XSDType__. rewrite DataType_iter.
  apply dict_comp_lookup; [apply DataType_code_NoDup|apply DataType_declared].
Qed.

Lemma DataType_table_miss (c : string) :
  (∀ d, DataType.code d ≠ c) → DataType.__XSDType__ !! c = None.
Proof.
  intros Hc. apply dict_comp_lookup_None.
  intros (d & -> & _)%list_elem_of_fmap. by apply (Hc d).
Qed.

Lemma DataType_get_enum_code (d : DataType.t) :
  DataType.get_enum (Some (DataType.code d)) = Some d.
Proof.
  unfold DataType.get_enum, DataType.get_enum_in.
  rewrite DataType_code_truthy. apply DataType_table_lookup.
Qed.

(** C2. Looking up the code of a registry entry returns that entry, so no
    two entries share a code; the lookup of an absent code ([None]) and of
    any string that is no entry's code, such as "not-a-type", returns
    [None]. *)
Theorem DataType_get_enum_round_trip :
  (∀ d, DataType.get_enum (Some (DataType.code d)) = Some d) ∧
  (∀ a b, DataType.code a = DataType.code b → a = b) ∧
  DataType.get_enum None = None ∧
  (∀ c, (∀ d, DataType.code d ≠ c) → DataType.get_enum (Some c) = None) ∧
  DataType.get_enum (Some "not-a-type") = None.
Proof.
  split_and!.
  - apply DataType_get_enum_code.
  - intros a b Hab.
    pose proof (DataType_get_enum_code a) as Ha.
    rewrite Hab, DataType_get_enum_code in Ha. congruence.
  - reflexivity.
  - intros c Hc. unfold DataType.get_enum, DataType.get_enum_in.
    destruct (truthy (Some c)); [|done]. by apply DataType_table_miss.
  - vm_compute. reflexivity.
Qed.

Lemma DataType_get_enum_round_trip_witness :
  DataType.get_enum (Some (DataType.code DataType.DATE_TIME))
    = Some DataType.DATE_TIME ∧
  DataType.DATE_TIME = DataType.DATE_TIME ∧
  DataType.get_enum (Some "datetime") = None.
Proof.
  destruct DataType_get_enum_round_trip as (Hrt & Hinj & _ & Hmiss & _).
  split_and!; [apply Hrt|apply Hinj; reflexivity|].
  apply Hmiss. intros d. destruct d; vm_compute; discriminate.
Defined.

(** C6. The entries for "decimal" and "double" carry the arbitrary-precision
    decimal class [Decimal], not [float]; the entry for "float" carries
    [float]. *)
Theorem DataType_decimal_double_float :
  DataType.local <$> DataType.get_enum (Some "decimal")
    = Some (Cls cls_Decimal) ∧
  DataType.local <$> DataType.get_enum (Some "double")
    = Some (Cls cls_Decimal) ∧
  DataType.local <$> DataType.get_enum (Some "float")
    = Some (Cls cls_float) ∧
  Cls cls_Decimal ≠ Cls cls_float.
Proof. split_and!; [vm_compute; reflexivity..|discriminate]. Qed.

(** C5. The label of an entry with a single native kind is that kind's
    name; in general it is the names of the entry's native kinds, in
    declaration order, joined by ", ". The entry "qmap" is the union entry
    (qualified name, then string) and its label is "QName, str". *)
Theorem DataType_local_name_label :
  (∀ d c, DataType.local d = Cls c →
     DataType.local_name d = Return (__name__ c)) ∧
  (∀ d cs, DataType.local d = Tup cs →
     DataType.local_name d = Return (join ", " (__name__ <$> cs))) ∧
  (∀ d, DataType.local_name d
          = Return (join ", " (__name__ <$> nativeKinds d))) ∧
  DataType.get_enum (Some "qmap") = Some DataType.QMAP ∧
  nativeKinds DataType.QMAP = [cls_QName; cls_str] ∧
  DataType.local_name DataType.QMAP = Return "QName, str" ∧
  (∀ d, isinstance_Iterable (DataType.local d) = true → d = DataType.QMAP).
Proof.
  split_and!.
  - intros d c Hd. unfold DataType.local_name. by rewrite Hd.
  - intros d cs Hd. unfold DataType.local_name. by rewrite Hd.
  - intros d. unfold DataType.local_name, nativeKinds.
    by destruct (DataType.local d).
  - vm_compute. reflexivity.
  - reflexivity.
  - vm_compute. reflexivity.
  - intros d. destruct d; cbn; first [reflexivity|discriminate].
Qed.

Lemma DataType_local_name_label_witness :
  DataType.local_name DataType.UNSIGNED_LONG = Return "int" ∧
  DataType.local_name DataType.QMAP = Return "QName, str" ∧
  DataType.QMAP = DataType.QMAP.
Proof.
  destruct DataType_local_name_label as (Hone & Hmany & _ & _ & _ & _ & Hq).
  split_and!.
  - apply (Hone DataType.UNSIGNED_LONG cls_int). reflexivity.
  - apply (Hmany DataType.QMAP [cls_QName; cls_str]). reflexivity.
  - apply Hq. reflexivity.
Defined.

(** C1, as stated, fails: the entry for "ID" carries the plain string class,
    not the integer class. *)
Lemma DataType_ID_is_str :
  DataType.local <$> DataType.get_enum (Some "ID") = Some (Cls cls_str) ∧
  Cls cls_str ≠ Cls cls_int.
Proof. split; [vm_compute; reflexivity|discriminate]. Qed.

(** C1 (amended). Every integer-family code maps to the arbitrary-size
    integer class [int]. Of the codes "ID", "IDREF" and "ENTITY" only
    "ENTITY" maps to [int]; "ID" and "IDREF" map to the plain string class
    [str]. *)
Theorem DataType_integer_family :
  (∀ c, c ∈ W3C.integer_family →
     DataType.local <$> DataType.get_enum (Some c) = Some (Cls cls_int)) ∧
  DataType.local <$> DataType.get_enum (Some "ENTITY") = Some (Cls cls_int) ∧
  DataType.local <$> DataType.get_enum (Some "ID") = Some (Cls cls_str) ∧
  DataType.local <$> DataType.get_enum (Some "IDREF") = Some (Cls cls_str).
Proof.
  split_and!; [|vm_compute; reflexivity..].
  intros c Hc. unfold W3C.integer_family in Hc.
  repeat (apply elem_of_cons in Hc as [->|Hc]; [vm_compute; reflexivity|]).
  by apply elem_of_nil in Hc.
Qed.

Lemma DataType_integer_family_witness :
  DataType.local <$> DataType.get_enum (Some "unsignedShort")
    = Some (Cls cls_int).
Proof.
  apply (proj1 DataType_integer_family "unsignedShort").
  unfold W3C.integer_family. in_table.
Defined.

(** C3, as stated, fails: "base" is the code of an entry, yet it is neither
    a built-in type name of XSD Part 2 nor one of "qmap" and "object". *)
Lemma DataType_base_is_extra :
  DataType.get_enum (Some "base") = Some DataType.BASE ∧
  ("base" ∉ W3C.builtin) ∧ "base" ≠ "qmap" ∧ "base" ≠ "object".
Proof.
  split_and!; [vm_compute; reflexivity| |discriminate..].
  apply (bool_decide_unpack _). vm_compute. reflexivity.
Qed.

(** C3 (amended). The registry holds exactly one entry for every built-in
    type name of XSD Part 2 and exactly one for each of the two synthetic
    codes "qmap" and "object"; its remaining codes are "base",
    "derivationControl", "lang" and "simpleDerivationSet". The entry for
    "decimal" has the native kinds [Decimal], the one for "boolean" [bool]
    and the one for "unsignedLong" [int]. *)
Theorem DataType_registry_coverage :
  (∀ n, n ∈ W3C.builtin → length (entries_with_code n) = 1%nat) ∧
  length (entries_with_code "qmap") = 1%nat ∧
  length (entries_with_code "object") = 1%nat ∧
  NoDup W3C.builtin ∧ ("qmap" ∉ W3C.builtin) ∧ ("object" ∉ W3C.builtin) ∧
  filter (λ c, c ∉ (W3C.builtin ++ ["qmap"; "object"])%list) registry_codes
    = ["base"; "derivationControl"; "lang"; "simpleDerivationSet"] ∧
  nativeKinds <$> DataType.get_enum (Some "decimal")
    = Some [cls_Decimal] ∧
  nativeKinds <$> DataType.get_enum (Some "boolean")
    = Some [cls_bool] ∧
  nativeKinds <$> DataType.get_enum (Some "unsignedLong")
    = Some [cls_int].
Proof.
  split_and!.
  - intros n Hn. apply list_elem_of_In in Hn. vm_compute in Hn.
    repeat (destruct Hn as [<-|Hn]; [vm_compute; reflexivity|]).
    destruct Hn.
  - vm_compute. reflexivity.
  - vm_compute. reflexivity.
  - by_table.
  - by_table.
  - by_table.
  - vm_compute. reflexivity.
  - vm_compute. reflexivity.
  - vm_compute. reflexivity.
  - vm_compute. reflexivity.
Qed.

Lemma DataType_registry_coverage_witness :
  length (entries_with_code "dateTimeStamp") = 1%nat.
Proof.
  apply (proj1 DataType_registry_coverage "dateTimeStamp").
  apply (bool_decide_unpack _). vm_compute. reflexivity.
Defined.

(** C10. Both reverse lookups answer [None] for the empty string whatever
    the table holds, as they do for an absent input: an entry keyed by the
    empty string would be in the table and still not be returned. *)
Theorem get_enum_empty_string :
  (∀ table, Namespace.get_enum_in table (Some "") = None) ∧
  (∀ table, DataType.get_enum_in table (Some "") = None) ∧
  Namespace.get_enum (Some "") = None ∧
  DataType.get_enum (Some "") = None ∧
  Namespace.get_enum (Some "") = Namespace.get_enum None ∧
  DataType.get_enum (Some "") = DataType.get_enum None ∧
  (∀ (table : gmap string Namespace.t) ns,
     (<["" := ns]> table) !! "" = Some ns ∧
     Namespace.get_enum_in (<["" := ns]> table) (Some "") = None) ∧
  (∀ (table : gmap string DataType.t) d,
     (<["" := d]> table) !! "" = Some d ∧
     DataType.get_enum_in (<["" := d]> table) (Some "") = None).
Proof.
  split_and!; try reflexivity.
  - intros table ns. split; [apply lookup_insert_eq|reflexivity].
  - intros table d. split; [apply lookup_insert_eq|reflexivity].
Qed.

(** ** The small enumerations *)

Ltac by_value_lookup_tac :=
  split_and!;
  [ intros v; apply enum_call_value; [by_table|destruct v; cbn; in_table]
  | intros s Hs; apply enum_call_unknown; intros v _; apply Hs
  | vm_compute; reflexivity ].

Lemma FormType_by_value : by_value_lookup FormType.t.
Proof. by_value_lookup_tac. Qed.

Lemma Mode_by_value : by_value_lookup Mode.t.
Proof. by_value_lookup_tac. Qed.

Lemma UseType_by_value : by_value_lookup UseType.t.
Proof. by_value_lookup_tac. Qed.

Lemma ProcessType_by_value : by_value_lookup ProcessType.t.
Proof. by_value_lookup_tac. Qed.

Lemma BindingStyle_by_value : by_value_lookup BindingStyle.t.
Proof. by_value_lookup_tac. Qed.

Lemma UseChoice_by_value : by_value_lookup UseChoice.t.
Proof. by_value_lookup_tac. Qed.

(** C4, as stated, fails: the by-value lookup of [FormType] does not return
    an absence value for "bogus", it raises [ValueError]. *)
Lemma FormType_bogus_raises :
  enum_call (E:=FormType.t) "bogus" = Raise ValueError ∧
  ¬ returns_normally (enum_call (E:=FormType.t) "bogus").
Proof.
  split; [vm_compute; reflexivity|].
  intros [v Hv]. vm_compute in Hv. discriminate.
Qed.

(** C4 (amended). For each of [FormType], [Mode], [UseType], [ProcessType],
    [BindingStyle] and [UseChoice], looking up the wire value of a variant
    returns that variant, and looking up an unknown wire value such as
    "bogus" yields no variant and no default: it raises [ValueError]. *)
Theorem auxiliary_enums_by_value :
  by_value_lookup FormType.t ∧ by_value_lookup Mode.t ∧
  by_value_lookup UseType.t ∧ by_value_lookup ProcessType.t ∧
  by_value_lookup BindingStyle.t ∧ by_value_lookup UseChoice.t.
Proof.
  split_and!;
    [ apply FormType_by_value | apply Mode_by_value | apply UseType_by_value
    | apply ProcessType_by_value | apply BindingStyle_by_value
    | apply UseChoice_by_value ].
Qed.

Lemma auxiliary_enums_by_value_witness :
  enum_call (enum_value UseType.PROHIBITED) = Return UseType.PROHIBITED ∧
  enum_call (E:=ProcessType.t) "Strict" = Raise ValueError.
Proof.
  destruct auxiliary_enums_by_value as (_ & _ & [Hu _] & (_ & Hp & _) & _).
  split; [apply Hu|].
  apply Hp. intros v. destruct v; vm_compute; discriminate.
Defined.

(** ** The Schema Tag Registry *)

(** C8. A tag is recognized exactly when it is one of the constants of
    [Tag], and [isRestrictionFacet] is true exactly for the constants
    declared as restrictions: Enumeration, Pattern, Length, MinLength,
    MaxLength, FractionDigits, TotalDigits, the four Inclusive and Exclusive
    bounds and WhiteSpace. It is true for "Enumeration" and false for
    "Element". *)
Theorem Tag_isRestrictionFacet_exact :
  (∀ tag, isRecognized tag = true ↔ tag ∈ Tag.constants) ∧
  (∀ tag, isRestrictionFacet tag = true ↔ tag ∈ Tag.restrictions) ∧
  (∀ tag, tag ∈ Tag.structural → isRestrictionFacet tag = false) ∧
  isRestrictionFacet "Enumeration" = true ∧
  isRestrictionFacet "Element" = false.
Proof.
  split_and!.
  - intros tag. unfold isRecognized. apply bool_decide_eq_true.
  - intros tag. split.
    + unfold isRestrictionFacet. intros [Hrec Hpat]%andb_prop.
      unfold isRecognized in Hrec. apply bool_decide_eq_true in Hrec.
      revert Hpat. unfold Tag.constants, Tag.structural in Hrec.
      cbn [app] in Hrec.
      repeat (apply elem_of_cons in Hrec as [->|Hrec];
              [first [ solve [intros _; unfold Tag.restrictions; in_table]
                     | vm_compute; discriminate ]|]).
      by apply elem_of_nil in Hrec.
    + unfold Tag.restrictions. intros Hin.
      repeat (apply elem_of_cons in Hin as [->|Hin];
              [vm_compute; reflexivity|]).
      by apply elem_of_nil in Hin.
  - intros tag Hin. unfold Tag.structural in Hin.
    repeat (apply elem_of_cons in Hin as [->|Hin];
            [vm_compute; reflexivity|]).
    by apply elem_of_nil in Hin.
  - vm_compute. reflexivity.
  - vm_compute. reflexivity.
Qed.

Lemma Tag_isRestrictionFacet_exact_witness :
  isRestrictionFacet "Restriction" = false.
Proof.
  destruct Tag_isRestrictionFacet_exact as (_ & _ & Hs & _).
  apply Hs. unfold Tag.structural. in_table.
Defined.

(** * Further properties of the tables *)

(** ** Reading a dictionary built by comprehension *)
Section dict_comp_inv.
Context {A : Type} (key : A → string).

Lemma foldl_insert_lookup_Some (xs : list A) (d : gmap string A) k x :
  foldl (λ d x, <[key x := x]> d) d xs !! k = Some x →
  (key x = k ∧ x ∈ xs) ∨ d !! k = Some x.
Proof.
  revert d. induction xs as [|y xs IH]; intros d Hk; [by right|].
  cbn [foldl] in Hk. apply IH in Hk as [[Hkey Hin]|Hd].
  - left. split; [done|by apply list_elem_of_further].
  - destruct (decide (key y = k)) as [Heq|Hne].
    + rewrite <- Heq, lookup_insert_eq in Hd. injection Hd as ->.
      left. split; [done|apply list_elem_of_here].
    + rewrite lookup_insert_ne in Hd by done. by right.
Qed.

Lemma dict_comp_lookup_Some (xs : list A) k x :
  dict_comp key xs !! k = Some x → key x = k ∧ x ∈ xs.
Proof.
  intros [?|Hd]%foldl_insert_lookup_Some; [done|].
  by rewrite lookup_empty in Hd.
Qed.
End dict_comp_inv.

Lemma NoDup_fmap_eq {A B} (f : A → B) (l : list A) x y :
  NoDup (f <$> l) → x ∈ l → y ∈ l → f x = f y → x = y.
Proof.
  intros Hnd [i Hi]%list_elem_of_lookup_1 [j Hj]%list_elem_of_lookup_1 Hf.
  assert (i = j) as ->; [|congruence].
  eapply NoDup_lookup; [exact Hnd| |].
  - rewrite list_lookup_fmap, Hi. reflexivity.
  - rewrite list_lookup_fmap, Hj. cbn. by rewrite Hf.
Qed.

Lemma dict_get_Some {V} (d : gmap string V) (s : string) :
  dict_get d (Some s) = d !! s.
Proof. reflexivity. Qed.

(** ** The reverse lookups, exactly *)

Lemma DataType_get_enum_Some (c : option string) (d : DataType.t) :
  DataType.get_enum c = Some d → c = Some (DataType.code d).
Proof.
  destruct c as [s|]; [|discriminate].
  unfold DataType.get_enum, DataType.get_enum_in.
  destruct (truthy (Some s)); [|discriminate]. rewrite dict_get_Some.
  intros [<- _]%dict_comp_lookup_Some. reflexivity.
Qed.

(** X1. [DataType.get_enum] returns an entry for exactly one argument, the
    entry's own code: it never returns an entry under another string, and
    the index [__XSDType__] holds one key for each of the 56 members. *)
Theorem DataType_get_enum_exact :
  (∀ c d, DataType.get_enum c = Some d ↔ c = Some (DataType.code d)) ∧
  size DataType.__XSDType__ = length (enum_iter (E:=DataType.t)) ∧
  size DataType.__XSDType__ = 56%nat.
Proof.
  split_and!; [|vm_compute; reflexivity..].
  intros c d. split.
  - apply DataType_get_enum_Some.
  - intros ->. apply DataType_get_enum_code.
Qed.

Lemma Namespace_get_enum_uri (ns : Namespace.t) :
  Namespace.get_enum (Some (Namespace.uri ns)) = Some ns.
Proof.
  unfold Namespace.get_enum, Namespace.get_enum_in.
  rewrite Namespace_uri_truthy. apply Namespace_table_lookup.
Qed.

Lemma Namespace_get_enum_Some (u : option string) (ns : Namespace.t) :
  Namespace.get_enum u = Some ns → u = Some (Namespace.uri ns).
Proof.
  destruct u as [s|]; [|discriminate].
  unfold Namespace.get_enum, Namespace.get_enum_in.
  destruct (truthy (Some s)); [|discriminate]. rewrite dict_get_Some.
  intros [<- _]%dict_comp_lookup_Some. reflexivity.
Qed.

(** X2. [Namespace.get_enum] returns a namespace for exactly one argument,
    the namespace's own URI, and the index [__STANDARD_NAMESPACES__] holds
    one key for each of the seven members. *)
Theorem Namespace_get_enum_exact :
  (∀ u ns, Namespace.get_enum u = Some ns ↔ u = Some (Namespace.uri ns)) ∧
  size Namespace.__STANDARD_NAMESPACES__
    = length (enum_iter (E:=Namespace.t)) ∧
  size Namespace.__STANDARD_NAMESPACES__ = 7%nat.
Proof.
  split_and!; [|vm_compute; reflexivity..].
  intros u ns. split.
  - apply Namespace_get_enum_Some.
  - intros ->. apply Namespace_get_enum_uri.
Qed.

(** X3. [Namespace.get_enum(u)] and the constructor call [Namespace(u)]
    agree: where the call returns a member, [get_enum] returns the same
    member, and where the call raises, [get_enum] returns [None]. *)
Theorem Namespace_get_enum_agrees_with_call (u : string) :
  match enum_call (E:=Namespace.t) u with
  | Return ns => Namespace.get_enum (Some u) = Some ns
  | Raise _ => Namespace.get_enum (Some u) = None
  end.
Proof.
  unfold enum_call.
  destruct (list_find _ _) as [[i ns]|] eqn:Hf.
  - apply list_find_Some in Hf as (_ & <- & _).
    apply Namespace_get_enum_uri.
  - apply list_find_None in Hf. rewrite Namespace_iter in Hf.
    unfold Namespace.get_enum, Namespace.get_enum_in.
    destruct (truthy (Some u)); [|done]. rewrite dict_get_Some.
    apply Namespace_table_miss. intros ns.
    apply (proj1 (Forall_forall _ _) Hf ns), Namespace_declared.
Qed.

(** X4. The qualified name of an entry lies in the XS namespace and leads
    back to the entry: its namespace part resolves to [Namespace.XS], its
    local part resolves to the entry, and two entries with the same
    qualified name are the same entry. *)
Theorem DataType_qname_round_trip :
  (∀ d, Namespace.get_enum (Some (fst (DataType.qname d)))
          = Some Namespace.XS) ∧
  (∀ d, DataType.get_enum (Some (snd (DataType.qname d))) = Some d) ∧
  (∀ a b, DataType.qname a = DataType.qname b → a = b).
Proof.
  split_and!.
  - intros d. apply (Namespace_get_enum_uri Namespace.XS).
  - intros d. apply DataType_get_enum_code.
  - intros a b Hq. apply (f_equal snd) in Hq. cbn in Hq.
    pose proof (DataType_get_enum_code a) as Ha.
    rewrite Hq, DataType_get_enum_code in Ha. congruence.
Qed.

Lemma DataType_qname_round_trip_witness :
  DataType.G_YEAR = DataType.G_YEAR.
Proof.
  apply (proj2 (proj2 DataType_qname_round_trip)). reflexivity.
Defined.

Lemma DataType_lower_code_NoDup :
  NoDup ((λ d, lower (DataType.code d)) <$> enum_declared).
Proof. by_table. Qed.

(** X5. [DataType.get_enum] is case-sensitive: of two strings that differ
    only in the case of their letters, at most one is found. *)
Theorem DataType_get_enum_case_sensitive (c c' : string) :
  lower c = lower c' →
  is_Some (DataType.get_enum (Some c)) →
  is_Some (DataType.get_enum (Some c')) →
  c = c'.
Proof.
  intros Hl [d Hd] [d' Hd'].
  apply DataType_get_enum_Some in Hd, Hd'.
  injection Hd as ->. injection Hd' as ->.
  f_equal.
  apply (NoDup_fmap_eq (λ d, lower (DataType.code d)) enum_declared);
    [apply DataType_lower_code_NoDup|apply DataType_declared..|done].
Qed.

Lemma DataType_get_enum_case_sensitive_witness :
  "dateTime" = "dateTime" ∧ DataType.get_enum (Some "datetime") = None.
Proof.
  split; [|vm_compute; reflexivity].
  apply DataType_get_enum_case_sensitive;
    [reflexivity|vm_compute; eauto..].
Defined.

(** ** What the namespace lookup does not resolve *)

(** X6. [Namespace.get_enum] resolves URIs only: whatever it finds starts
    with "http://". The symbolic name of a namespace, its prefix and the
    wildcard tokens of [NamespaceType] are not found. *)
Theorem Namespace_get_enum_uri_only :
  (∀ u ns, Namespace.get_enum (Some u) = Some ns →
     String.prefix "http://" u = true) ∧
  (∀ ns, Namespace.get_enum (Some (Namespace.name ns)) = None) ∧
  (∀ ns, Namespace.get_enum (Some (Namespace.prefix ns)) = None) ∧
  (∀ tok, tok ∈ NamespaceType.constants →
     Namespace.get_enum (Some tok) = None).
Proof.
  split_and!.
  - intros u ns Hu. apply Namespace_get_enum_Some in Hu.
    injection Hu as ->. by destruct ns.
  - intros ns. destruct ns; vm_compute; reflexivity.
  - intros ns. destruct ns; vm_compute; reflexivity.
  - intros tok Htok. unfold NamespaceType.constants in Htok.
    repeat (apply elem_of_cons in Htok as [->|Htok];
            [vm_compute; reflexivity|]).
    by apply elem_of_nil in Htok.
Qed.

Lemma Namespace_get_enum_uri_only_witness :
  String.prefix "http://" "http://www.w3.org/1999/xhtml" = true ∧
  Namespace.get_enum (Some "##other") = None.
Proof.
  destruct Namespace_get_enum_uri_only as (Hhttp & _ & _ & Htok).
  split.
  - apply (Hhttp _ Namespace.XHTML). vm_compute. reflexivity.
  - apply Htok. unfold NamespaceType.constants. in_table.
Defined.

(** ** The bundled schema of a namespace *)

Lemma Namespace_local_path_inj (dir : list string) (a b : Namespace.t) :
  Namespace.local_path dir a = Namespace.local_path dir b → a = b.
Proof.
  unfold Namespace.local_path, joinpath. intros Hp.
  apply app_inv_head in Hp. injection Hp as Hp.
  destruct a, b; vm_compute in Hp; first [reflexivity|discriminate].
Qed.

(** X7. [Namespace.location] answers [None] exactly when the file
    "<prefix>.xsd" is missing from the schema directory, and otherwise the
    URI of that file. The file name holds no path separator, and two
    namespaces never probe the same file, in whichever directory; so when
    [as_uri] tells the probed paths apart, no two namespaces have the same
    location. *)
Theorem Namespace_location_exact (dir : list string)
    (path_exists : list string → bool) (as_uri : list string → string) :
  (∀ ns, Namespace.location dir path_exists as_uri ns = None ↔
     path_exists (joinpath dir (Namespace.prefix ns ++ ".xsd")) = false) ∧
  (∀ ns u, Namespace.location dir path_exists as_uri ns = Some u →
     u = as_uri (joinpath dir (Namespace.prefix ns ++ ".xsd"))) ∧
  (∀ ns, "/"%char ∉ list_ascii_of_string (Namespace.prefix ns ++ ".xsd")) ∧
  (∀ a b, Namespace.local_path dir a = Namespace.local_path dir b → a = b) ∧
  ((∀ a b, as_uri (Namespace.local_path dir a)
             = as_uri (Namespace.local_path dir b) →
           Namespace.local_path dir a = Namespace.local_path dir b) →
   ∀ a b u,
     Namespace.location dir path_exists as_uri a = Some u →
     Namespace.location dir path_exists as_uri b = Some u →
     a = b).
Proof.
  split_and!.
  - intros ns. unfold Namespace.location, Namespace.local_path.
    destruct (path_exists _); split; congruence.
  - intros ns u. unfold Namespace.location, Namespace.local_path.
    destruct (path_exists _); congruence.
  - intros ns. destruct ns; by_table.
  - apply Namespace_local_path_inj.
  - intros Huri a b u. unfold Namespace.location.
    destruct (path_exists (Namespace.local_path dir a)); [|discriminate].
    destruct (path_exists (Namespace.local_path dir b)); [|discriminate].
    intros Ha Hb. eapply Namespace_local_path_inj, Huri. congruence.
Qed.

Lemma Namespace_location_exact_witness :
  let dir := ["/"; "opt"; "xsdata"; "schemas"] in
  let path_exists (p : list string) :=
    bool_decide (p = joinpath dir "xml.xsd") in
  let as_uri (p : list string) := "file:///" ++ join "/" (drop 1 p) in
  Namespace.location dir path_exists as_uri Namespace.XML
    = Some "file:///opt/xsdata/schemas/xml.xsd" ∧
  Namespace.location dir path_exists as_uri Namespace.XS = None ∧
  Namespace.XML = Namespace.XML.
Proof.
  intros dir path_exists as_uri.
  destruct (Namespace_location_exact dir path_exists as_uri)
    as (Hnone & _ & _ & _ & Hinj).
  split_and!.
  - vm_compute. reflexivity.
  - apply Hnone. vm_compute. reflexivity.
  - apply (Hinj ltac:(intros a b; destruct a, b; vm_compute;
                      first [reflexivity|discriminate])
             _ _ "file:///opt/xsdata/schemas/xml.xsd");
      vm_compute; reflexivity.
Defined.

(** ** The small enumerations: values and names *)

Ltac value_is_lower_name_tac :=
  intros m; destruct m; split; vm_compute; reflexivity.

(** X8. In each of [FormType], [Mode], [UseType], [ProcessType],
    [BindingStyle] and [UseChoice] the value of every member is its name in
    lower case; the lookup by value is case-sensitive, so that looking up
    the name as it is written in the class raises [ValueError]. *)
Theorem auxiliary_enums_value_is_lower_name :
  value_is_lower_name FormType.t ∧ value_is_lower_name Mode.t ∧
  value_is_lower_name UseType.t ∧ value_is_lower_name ProcessType.t ∧
  value_is_lower_name BindingStyle.t ∧ value_is_lower_name UseChoice.t.
Proof. split_and!; value_is_lower_name_tac. Qed.

(** ** The tag constants *)

(** X9. The 45 constants of [Tag] are pairwise distinct, none of them is
    both above and below the [Restrictions] comment, and none of them is
    the code of a data type or the URI of a namespace. *)
Theorem Tag_constants_distinct :
  NoDup Tag.constants ∧
  length Tag.constants = 45%nat ∧
  (∀ tag, tag ∈ Tag.structural → tag ∉ Tag.restrictions) ∧
  (∀ tag, tag ∈ Tag.constants →
     DataType.get_enum (Some tag) = None ∧
     Namespace.get_enum (Some tag) = None).
Proof.
  split_and!.
  - by_table.
  - reflexivity.
  - intros tag Hs Hr.
    pose proof (NoDup_app Tag.structural Tag.restrictions) as [Hd _].
    destruct Hd as (_ & Hdisj & _); [by_table|]. by apply (Hdisj tag).
  - intros tag Hin.
    unfold Tag.constants, Tag.structural, Tag.restrictions in Hin.
    cbn [app] in Hin.
    repeat (apply elem_of_cons in Hin as [->|Hin];
            [split; vm_compute; reflexivity|]).
    by apply elem_of_nil in Hin.
Qed.

Lemma Tag_constants_distinct_witness :
  DataType.get_enum (Some Tag.NOTATION) = None ∧
  Namespace.get_enum (Some Tag.NOTATION) = None.
Proof.
  apply (proj2 (proj2 (proj2 Tag_constants_distinct)) Tag.NOTATION).
  unfold Tag.constants, Tag.structural. cbn [app]. in_table.
Defined.
